(** * htcondor-python-bindings-tutorials: the launcher script and the notebooks

    The repository holds one shell script, [docker/local.sh], and two
    Jupyter notebooks.  The script is embedded as a small shell program
    with an executable semantics (parameter expansion, field splitting,
    [set -e], external commands answered by an oracle, and a guard on
    the environment variables that bash itself reads when it starts);
    the notebooks
    are embedded as nbformat-4 documents whose code cells are Python
    syntax trees and whose recorded outputs are kept as data. *)

From Stdlib Require Import ZArith Ascii String.
From stdpp Require Import gmap strings list pretty.

Set Warnings "-register-all".

Open Scope string_scope.
Open Scope list_scope.

(** ** A fragment of the shell, enough for [docker/local.sh] *)

Module Sh.

(** The pieces of an unquoted word. *)
Inductive part :=
| Lit (s : string)          (* literal text *)
| Param (x : string)        (* ${x} *)
| Positional (n : nat)      (* $1, $2, ... *)
| AllArgs.                  (* $@ *)

Definition word := list part.

Inductive command :=
| Assign (x : string) (w : word)     (* x=word *)
| Simple (ws : list word).           (* word word ... *)

Inductive line :=
| Shebang (interpreter : string)
| Blank
| Cmd (c : command).

Definition script := list line.

(** The outside world: the exit status of an external command, given
    the commands run before it and its argument vector. *)
Definition world := list (list string) → list string → Z.

Record state := State {
  vars : gmap string string;
  errexit : bool;
  trace : list (list string);
  status : Z;
  halted : bool
}.

Definition is_ifs (c : ascii) : bool :=
  bool_decide (c = " "%char) || bool_decide (c = "009"%char)
  || bool_decide (c = "010"%char).

(** Fields under construction: the finished ones, and the one still open. *)
Definition fields : Type := list string * option string.

Definition add_lit (s : string) (f : fields) : fields :=
  (f.1, Some (default "" f.2 +:+ s)).

Definition close_field (f : fields) : fields :=
  match f.2 with
  | Some cur => (f.1 ++ [cur], None)
  | None => f
  end.

(** The result of an unquoted expansion is split at the characters of
    the default IFS. *)
Fixpoint add_split (v : string) (f : fields) : fields :=
  match v with
  | EmptyString => f
  | String c v' =>
      if is_ifs c then add_split v' (close_field f)
      else add_split v' (f.1, Some (default "" f.2 +:+ String c EmptyString))
  end.

Definition param_value (vs : gmap string string) (x : string) : string :=
  default "" (vs !! x).

Definition positional_value (args : list string) (n : nat) : string :=
  match n with
  | O => ""
  | S k => default "" (args !! k)
  end.

Definition add_part (vs : gmap string string) (args : list string)
    (p : part) (f : fields) : fields :=
  match p with
  | Lit s => add_lit s f
  | Param x => add_split (param_value vs x) f
  | Positional n => add_split (positional_value args n) f
  | AllArgs => foldl (λ acc a, close_field (add_split a acc)) f args
  end.

Definition expand_word (vs : gmap string string) (args : list string)
    (w : word) (fs : list string) : list string :=
  (close_field (foldl (λ acc p, add_part vs args p acc) (fs, None) w)).1.

Definition expand_words (vs : gmap string string) (args : list string)
    (ws : list word) : list string :=
  foldl (λ fs w, expand_word vs args w fs) [] ws.

(** The right-hand side of an assignment is expanded without splitting. *)
Definition part_text (vs : gmap string string) (args : list string)
    (p : part) : string :=
  match p with
  | Lit s => s
  | Param x => param_value vs x
  | Positional n => positional_value args n
  | AllArgs => String.concat " " args
  end.

Definition assign_value (vs : gmap string string) (args : list string)
    (w : word) : string :=
  String.concat "" (part_text vs args <$> w).

(** A command whose name is [set] is the shell's own: [set -e] and
    [set +e] switch exit-on-error, and other uses of [set] are not
    modelled (they leave the state alone).  Every other command is
    handed to the world; under [set -e] a failing one ends the script. *)
Definition exec_argv (wd : world) (argv : list string) (st : state) : state :=
  match argv with
  | [] => State (vars st) (errexit st) (trace st) 0 false
  | cmd :: rest =>
      if String.eqb cmd "set" then
        match rest with
        | [flag] =>
            if String.eqb flag "-e" then State (vars st) true (trace st) 0 false
            else if String.eqb flag "+e" then State (vars st) false (trace st) 0 false
            else State (vars st) (errexit st) (trace st) 0 false
        | _ => State (vars st) (errexit st) (trace st) 0 false
        end
      else
        let rc := wd (trace st) argv in
        State (vars st) (errexit st) (trace st ++ [argv]) rc
              (errexit st && negb (rc =? 0)%Z)
  end.

Definition exec (wd : world) (args : list string) (c : command)
    (st : state) : state :=
  match c with
  | Assign x w =>
      State (<[x := assign_value (vars st) args w]> (vars st))
            (errexit st) (trace st) 0 false
  | Simple ws => exec_argv wd (expand_words (vars st) args ws) st
  end.

Fixpoint run (wd : world) (args : list string) (s : script)
    (st : state) : state :=
  match s with
  | [] => st
  | Shebang _ :: s' | Blank :: s' => run wd args s' st
  | Cmd c :: s' =>
      let st' := exec wd args c st in
      if halted st' then st' else run wd args s' st'
  end.

(** The script run by a shell that has just started with the given
    variables, no option set, no function and no trap.  The variables
    are a plain store here: what bash makes of its environment when it
    starts is the business of [bash] below. *)
Definition invoke (s : script) (wd : world) (args : list string)
    (env : gmap string string) : state :=
  run wd args s (State env false [] 0 false).

(** What an observer of the invocation sees. *)
Definition outcome (st : state) : list (list string) * Z :=
  (trace st, status st).

(** Bash reads some of its environment before the first line of a
    script: [SHELLOPTS] and [BASHOPTS] switch options on ([noexec] runs
    nothing), [BASH_ENV] names a file to run first (which may set traps
    or redefine [set] and [docker]), [BASH_FUNC_...] entries and, in old
    versions, values starting with [() {] define functions, and the
    loader reads [LD_...].  None of this is modelled.  (An inherited
    [IFS] is reset by bash, so the default one above is the right one.) *)
Definition startup_name (x : string) : bool :=
  String.prefix "BASH" x || String.prefix "LD_" x
  || bool_decide (x ∈ ["SHELLOPTS"; "ENV"; "POSIXLY_CORRECT"]).

Definition function_export (v : string) : bool := String.prefix "() {" v.

(** An environment that reaches the script only as initial values of
    shell variables. *)
Definition startup_neutral (env : gmap string string) : bool :=
  forallb (λ kv, negb (startup_name kv.1) && negb (function_export kv.2))
    (map_to_list env).

(** The script run by bash in a process environment: [None] when the
    environment changes how bash starts, which is outside the model. *)
Definition bash (s : script) (wd : world) (args : list string)
    (env : gmap string string) : option state :=
  if startup_neutral env then Some (invoke s wd args env) else None.

(** A script is self-contained over the set [D] of variables it has
    assigned so far when it never reads a positional parameter and reads
    only variables of [D]. *)
Definition part_closed (D : gset string) (p : part) : bool :=
  match p with
  | Lit _ => true
  | Param x => bool_decide (x ∈ D)
  | Positional _ | AllArgs => false
  end.

Definition word_closed (D : gset string) (w : word) : bool :=
  forallb (part_closed D) w.

Fixpoint closed (D : gset string) (s : script) : bool :=
  match s with
  | [] => true
  | Shebang _ :: s' | Blank :: s' => closed D s'
  | Cmd (Assign x w) :: s' => word_closed D w && closed ({[x]} ∪ D) s'
  | Cmd (Simple ws) :: s' => forallb (word_closed D) ws && closed D s'
  end.

(** The variables assigned once a command has run, and the closedness
    of a single command. *)
Definition assigned (D : gset string) (c : command) : gset string :=
  match c with
  | Assign x _ => {[x]} ∪ D
  | Simple _ => D
  end.

Definition command_closed (D : gset string) (c : command) : bool :=
  match c with
  | Assign _ w => word_closed D w
  | Simple ws => forallb (word_closed D) ws
  end.

(** Two variable stores agree on the names in [D]. *)
Definition agree (D : gset string) (v1 v2 : gmap string string) : Prop :=
  ∀ x, x ∈ D → v1 !! x = v2 !! x.

(** Two shell states that differ at most in variables outside [D]. *)
Definition similar (D : gset string) (s1 s2 : state) : Prop :=
  agree D (vars s1) (vars s2) ∧ errexit s1 = errexit s2
  ∧ trace s1 = trace s2 ∧ status s1 = status s2 ∧ halted s1 = halted s2.

Definition is_external (c : line) : bool :=
  match c with
  | Cmd (Simple ([Lit c] :: _)) => negb (String.eqb c "set")
  | Cmd (Simple (_ :: _)) => true
  | _ => false
  end.

(** *** docker/local.sh *)

Definition local_sh : script :=
  [ Shebang "/usr/bin/env bash";
    Blank;
    Cmd (Simple [[Lit "set"]; [Lit "-e"]]);
    Blank;
    Cmd (Assign "CONTAINER_TAG" [Lit "htcondor-python-bindings-tutorials"]);
    Blank;
    Cmd (Simple [[Lit "docker"]; [Lit "build"]; [Lit "-t"];
                 [Param "CONTAINER_TAG"]; [Lit "--file"];
                 [Lit "docker/Dockerfile"]; [Lit "."]]);
    Cmd (Simple [[Lit "docker"]; [Lit "run"]; [Lit "-it"]; [Lit "--rm"];
                 [Lit "-p"]; [Lit "8888:8888"]; [Param "CONTAINER_TAG"];
                 [Lit "jupyter"]; [Lit "lab"]]) ].

Definition docker_build : list string :=
  ["docker"; "build"; "-t"; "htcondor-python-bindings-tutorials";
   "--file"; "docker/Dockerfile"; "."].

Definition docker_run : list string :=
  ["docker"; "run"; "-it"; "--rm"; "-p"; "8888:8888";
   "htcondor-python-bindings-tutorials"; "jupyter"; "lab"].

End Sh.

(** ** The Python of the code cells *)

Module Py.

(** ['...'] or a string in double quotes. *)
Inductive quote := SQ | DQ.

(** Expressions.  A string literal keeps the text between its quotes as
    it is written in the source, escapes included. *)
Inductive expr :=
| Name (x : string)
| Str (q : quote) (s : string)
| Num (n : Z)
| Attr (e : expr) (a : string)                       (* e.a *)
| Call (f : expr) (args : list expr) (kwargs : list (string * expr))
| Index (e i : expr)                                 (* e[i] *)
| SliceFrom (e lo : expr)                            (* e[lo:] *)
| ListLit (es : list expr)
| Tuple (es : list expr)
| Dict (kvs : list (expr * expr))
| Mod (a b : expr).                                  (* a % b *)

(** Statements, one per source line; the bodies of compound statements
    follow their header line.  Comments and the width of the
    indentation are not kept. *)
Inductive stmt :=
| Import (m : string)
| AssignS (target value : expr)
| ExprS (e : expr)
| With (ctx : expr) (as_ : string) (body : list stmt)
| For (x : string) (iter : expr) (body : list stmt)
| Def (f : string) (params : list string) (body : list stmt)
| Class (c : string) (body : list stmt)
| Raise (e : expr)
| Try (body handler : list stmt)
| BlankLine.

Definition dq : string := String "034"%char EmptyString.

Definition commas (l : list string) : string := String.concat ", " l.

Fixpoint render (e : expr) : string :=
  match e with
  | Name x => x
  | Str SQ s => "'" +:+ s +:+ "'"
  | Str DQ s => dq +:+ s +:+ dq
  | Num n => pretty n
  | Attr e a => render e +:+ "." +:+ a
  | Call f args kwargs =>
      render f +:+ "("
      +:+ commas (List.map render args
                  ++ List.map (λ kv, match kv with
                                     | (k, v) => k +:+ "=" +:+ render v
                                     end) kwargs)
      +:+ ")"
  | Index e i => render e +:+ "[" +:+ render i +:+ "]"
  | SliceFrom e lo => render e +:+ "[" +:+ render lo +:+ ":]"
  | ListLit es => "[" +:+ commas (List.map render es) +:+ "]"
  | Tuple es => "(" +:+ commas (List.map render es) +:+ ")"
  | Dict kvs =>
      "{" +:+ commas (List.map (λ kv, match kv with
                                      | (k, v) => render k +:+ ": " +:+ render v
                                      end) kvs) +:+ "}"
  | Mod a b => render a +:+ " % " +:+ render b
  end.

(** Source lines, with four spaces for each level of nesting. *)
Fixpoint render_stmt (ind : string) (s : stmt) : list string :=
  let block := λ body, List.concat (List.map (render_stmt (ind +:+ "    ")) body) in
  match s with
  | Import m => [ind +:+ "import " +:+ m]
  | AssignS t v => [ind +:+ render t +:+ " = " +:+ render v]
  | ExprS e => [ind +:+ render e]
  | With ctx x body =>
      (ind +:+ "with " +:+ render ctx +:+ " as " +:+ x +:+ ":") :: block body
  | For x iter body =>
      (ind +:+ "for " +:+ x +:+ " in " +:+ render iter +:+ ":") :: block body
  | Def f ps body =>
      (ind +:+ "def " +:+ f +:+ "(" +:+ commas ps +:+ "):") :: block body
  | Class c body => (ind +:+ "class " +:+ c +:+ ":") :: block body
  | Raise e => [ind +:+ "raise " +:+ render e]
  | Try body handler =>
      (ind +:+ "try:") :: block body ++ (ind +:+ "except:") :: block handler
  | BlankLine => [""]
  end.

Definition render_source (src : list stmt) : list string :=
  List.concat (List.map (render_stmt "") src).

Definition line_count (src : list stmt) : nat := length (render_source src).

(** Does the code define a function or a class of its own? *)
Fixpoint defines (s : stmt) : bool :=
  match s with
  | Def _ _ _ | Class _ _ => true
  | With _ _ body | For _ _ body => existsb defines body
  | Try body handler => existsb defines body || existsb defines handler
  | Import _ | AssignS _ _ | ExprS _ | Raise _ | BlankLine => false
  end.

(** Does the code raise or catch an exception of its own? *)
Fixpoint handles_errors (s : stmt) : bool :=
  match s with
  | Raise _ | Try _ _ => true
  | With _ _ body | For _ _ body | Def _ _ body | Class _ body =>
      existsb handles_errors body
  | Import _ | AssignS _ _ | ExprS _ | BlankLine => false
  end.

(** Every expression occurring in an expression or in a statement. *)
Fixpoint subexprs (e : expr) : list expr :=
  let many := λ es, List.concat (List.map subexprs es) in
  e :: match e with
       | Name _ | Str _ _ | Num _ => []
       | Attr e' _ => subexprs e'
       | Call f args kwargs =>
           subexprs f ++ many args
           ++ List.concat (List.map (λ kv, match kv with
                                           | (_, v) => subexprs v
                                           end) kwargs)
       | Index a b | SliceFrom a b | Mod a b => subexprs a ++ subexprs b
       | ListLit es | Tuple es => many es
       | Dict kvs =>
           List.concat (List.map (λ kv, match kv with
                                        | (k, v) => subexprs k ++ subexprs v
                                        end) kvs)
       end.

Fixpoint stmt_exprs (s : stmt) : list expr :=
  let block := λ body, List.concat (List.map stmt_exprs body) in
  match s with
  | Import _ | BlankLine => []
  | AssignS t v => subexprs t ++ subexprs v
  | ExprS e | Raise e => subexprs e
  | With ctx _ body => subexprs ctx ++ block body
  | For _ iter body => subexprs iter ++ block body
  | Def _ _ body | Class _ body => block body
  | Try body handler => block body ++ block handler
  end.

(** *** Where the objects of a cell come from *)

Inductive origin :=
| Library       (* the htcondor module and whatever is obtained from it *)
| StdModule     (* another imported module, and whatever is obtained from it *)
| Builtin       (* print, open, repr, and whatever they return *)
| Data          (* literals and values computed from literals *)
| User          (* a function or class defined in the notebook *)
| Unbound.

Definition builtins : list string := ["print"; "open"; "repr"].

Definition lookup_name (env : gmap string origin) (x : string) : origin :=
  match env !! x with
  | Some o => o
  | None => if bool_decide (x ∈ builtins) then Builtin else Unbound
  end.

Fixpoint origin_of (env : gmap string origin) (e : expr) : origin :=
  match e with
  | Name x => lookup_name env x
  | Attr e _ | Call e _ _ | Index e _ | SliceFrom e _ => origin_of env e
  | Str _ _ | Num _ | ListLit _ | Tuple _ | Dict _ | Mod _ _ => Data
  end.

Inductive op_kind := CallOp | GetItem | SetItem.

(** One use of an object: a call, a subscript read, or a subscript
    assignment; [target] is the callee or the subscripted object. *)
Record op := Op { kind : op_kind; target : expr; provenance : origin }.

Fixpoint ops_expr (env : gmap string origin) (e : expr) : list op :=
  let many := λ es, List.concat (List.map (ops_expr env) es) in
  match e with
  | Name _ | Str _ _ | Num _ => []
  | Attr e _ => ops_expr env e
  | Call f args kwargs =>
      Op CallOp f (origin_of env f) :: ops_expr env f ++ many args
      ++ List.concat (List.map (λ kv, match kv with
                                      | (_, v) => ops_expr env v
                                      end) kwargs)
  | Index e i => Op GetItem e (origin_of env e) :: ops_expr env e ++ ops_expr env i
  | SliceFrom e lo =>
      Op GetItem e (origin_of env e) :: ops_expr env e ++ ops_expr env lo
  | ListLit es | Tuple es => many es
  | Dict kvs =>
      List.concat (List.map (λ kv, match kv with
                                   | (k, v) => ops_expr env k ++ ops_expr env v
                                   end) kvs)
  | Mod a b => ops_expr env a ++ ops_expr env b
  end.

Definition module_origin (m : string) : origin :=
  if String.eqb m "htcondor" then Library else StdModule.

(** The uses made by a statement and the name bindings it leaves behind. *)
Fixpoint ops_stmt (s : stmt) (env : gmap string origin)
    : list op * gmap string origin :=
  let block := fix block (body : list stmt) (env : gmap string origin) :=
    match body with
    | [] => ([], env)
    | s :: body' =>
        let r := ops_stmt s env in
        let r' := block body' r.2 in
        (r.1 ++ r'.1, r'.2)
    end in
  match s with
  | Import m => ([], <[m := module_origin m]> env)
  | AssignS (Name x) v => (ops_expr env v, <[x := origin_of env v]> env)
  | AssignS (Index e i) v =>
      (Op SetItem e (origin_of env e)
         :: ops_expr env e ++ ops_expr env i ++ ops_expr env v, env)
  | AssignS t v => (ops_expr env t ++ ops_expr env v, env)
  | ExprS e => (ops_expr env e, env)
  | With ctx x body =>
      let r := block body (<[x := origin_of env ctx]> env) in
      (ops_expr env ctx ++ r.1, r.2)
  | For x iter body =>
      let r := block body (<[x := origin_of env iter]> env) in
      (ops_expr env iter ++ r.1, r.2)
  | Def f _ _ => ([], <[f := User]> env)
  | Class c _ => ([], <[c := User]> env)
  | Raise e => (ops_expr env e, env)
  | Try body handler =>
      let r := block body env in
      let r' := block handler r.2 in
      (r.1 ++ r'.1, r'.2)
  | BlankLine => ([], env)
  end.

Fixpoint ops_source (src : list stmt) (env : gmap string origin)
    : list op * gmap string origin :=
  match src with
  | [] => ([], env)
  | s :: src' =>
      let r := ops_stmt s env in
      let r' := ops_source src' r.2 in
      (r.1 ++ r'.1, r'.2)
  end.

End Py.

(** ** Notebooks (nbformat 4) *)

Module Nb.
Import Py.

Definition nl : string := String "010"%char EmptyString.
Definition esc : string := String "027"%char EmptyString.

(** Text with terminal colours: each piece follows the SGR sequence
    [ESC [ code m]. *)
Definition ansi : Type := list (string * string).

Definition ansi_text (a : ansi) : string :=
  String.concat "" (List.map (λ p, esc +:+ "[" +:+ p.1 +:+ "m" +:+ p.2) a).

Definition plain (a : ansi) : string := String.concat "" (List.map snd a).

(** A recorded output.  Stream text and result text are kept line by
    line, without the newline that ends each line. *)
Inductive output :=
| Stream (name : string) (text : list string)
| Error (ename evalue : string) (traceback : list ansi)
| ExecuteResult (count : nat) (text_plain : list string).

Record code_cell := CodeCell {
  execution_count : option nat;
  outputs : list output;
  source : list stmt
}.

Inductive cell :=
| Markdown (text : list string)
| Code (c : code_cell).

Record notebook := Notebook {
  nbformat : nat;
  nbformat_minor : nat;
  kernel : string;
  cells : list cell
}.

Definition code_cells (n : notebook) : list code_cell :=
  omap (λ c, match c with Code k => Some k | Markdown _ => None end) (cells n).

Definition is_error (o : output) : bool :=
  match o with
  | Error _ _ _ => true
  | Stream _ _ | ExecuteResult _ _ => false
  end.

Definition has_error (c : code_cell) : bool := existsb is_error (outputs c).

(** The cells of a notebook run top to bottom in one interpreter, so
    the names bound by a cell are visible in the cells after it. *)
Fixpoint session (cs : list code_cell) (env : gmap string origin)
    : list (code_cell * list op) :=
  match cs with
  | [] => []
  | c :: cs' =>
      let r := ops_source (source c) env in
      (c, r.1) :: session cs' r.2
  end.

Definition uses (n : notebook) : list (code_cell * list op) :=
  session (code_cells n) ∅.


(** *** Shorthands for writing the cells down *)

Definition htcondor : expr := Name "htcondor".
Definition meth (o : expr) (m : string) (args : list expr) : expr :=
  Call (Attr o m) args [].
Definition print (e : expr) : stmt := ExprS (Call (Name "print") [e] []).
Definition param : expr := Attr htcondor "param".

(** *** tutorials/introductory/Submitting-and-Managing-Jobs.ipynb *)

Definition job_status_report : list stmt :=
  [ print (Str DQ "=== START JOB STATUS ===");
    For "job"
      (Call (Attr (Name "schedd") "xquery") []
         [ ("requirements", Mod (Str DQ "ClusterId == %d") (Name "clusterId"));
           ("projection",
            ListLit [Str DQ "ProcId"; Str DQ "foo"; Str DQ "JobStatus"]) ])
      [ print (Mod (Str DQ "%d: foo=%s, job_status = %d")
                 (Tuple [ meth (Name "job") "get" [Str DQ "ProcId"];
                          meth (Name "job") "get"
                            [Str DQ "foo"; Str DQ "default_string"];
                          Index (Name "job") (Str DQ "JobStatus") ])) ];
    print (Str DQ "=== END ===") ].

Definition intro_import : code_cell :=
  CodeCell None [] [ Import "htcondor" ].

Definition intro_submit_object : code_cell :=
  CodeCell None []
    [ AssignS (Name "sub")
        (meth htcondor "Submit"
           [Dict [ (Str DQ "foo", Str DQ "1"); (Str DQ "bar", Str DQ "2");
                   (Str DQ "baz", Str DQ "$(foo)") ]]);
      ExprS (meth (Name "sub") "setdefault" [Str DQ "qux"; Str DQ "3"]);
      print (meth (Str DQ "=== START ===\n{}\n=== END ===") "format"
               [Name "sub"]);
      print (meth (Name "sub") "expand" [Str DQ "baz"]) ].

Definition intro_minimal_submit : code_cell :=
  CodeCell None []
    [ AssignS (Name "sub")
        (meth htcondor "Submit"
           [Dict [ (Str DQ "executable", Str DQ "/bin/sleep");
                   (Str DQ "arguments", Str DQ "5m") ]]) ].

Definition intro_queue : code_cell :=
  CodeCell None []
    [ AssignS (Name "schedd") (meth htcondor "Schedd" []);
      With (meth (Name "schedd") "transaction" []) "txn"
        [ print (meth (Name "sub") "queue" [Name "txn"]) ] ].

Definition intro_job_management : code_cell :=
  CodeCell None []
    ([ With (meth (Name "schedd") "transaction" []) "txn"
         [ AssignS (Name "clusterId")
             (meth (Name "sub") "queue" [Name "txn"; Num 5]);
           ExprS (meth (Name "schedd") "edit"
                    [ ListLit [ Mod (Str DQ "%d.0") (Name "clusterId");
                                Mod (Str DQ "%d.1") (Name "clusterId") ];
                      Str DQ "foo";
                      Str SQ (dq +:+ "bar" +:+ dq) ]) ] ]
     ++ job_status_report
     ++ [ BlankLine;
          ExprS (meth (Name "schedd") "act"
                   [ Attr (Attr htcondor "JobAction") "Hold";
                     Mod (Str SQ "ClusterId==%d && ProcId >= 2")
                         (Name "clusterId") ]) ]
     ++ job_status_report).

Definition submitting_and_managing_jobs : notebook :=
  Notebook 4 2 "python3"
  [ Markdown
    [ "# Submitting and Managing Jobs";
      "";
      "The two most common HTCondor command line tools are `condor_q` and `condor_submit`; in the previous module, we learning the `xquery()` method that corresponds to `condor_q`. Here, we will learn the Python binding equivalent of `condor_submit`.";
      "";
      "As usual, we start by importing the relevant modules:" ];
    Code intro_import;
    Markdown
    [ "Submitting Jobs";
      "---------------";
      "";
      "We will submit jobs utilizing the dedicated `Submit` object.";
      "";
      "**Note** the Submit object was introduced in 8.5.6, which might be newer than your home cluster. The original API, using the `Schedd.submit` method, utilizes raw ClassAds and is not covered here.";
      "";
      "`Submit` objects consist of key-value pairs. Unlike ClassAds, the values do not have an inherent type (such as strings, integers, or booleans); they are evaluated with macro expansion at submit time. Where reasonable, they behave like Python dictionaries:" ];
    Code intro_submit_object;
    Markdown
    [ "The available attribuets - and their semantics - are relatively well documented in the `condor_submit` [online help](http://research.cs.wisc.edu/htcondor/manual/v8.5/condor_submit.html); we won’t repeat them here. A minimal, but realistic submit object may look like the following:" ];
    Code intro_minimal_submit;
    Markdown
    [ "To go from a submit object to job in a schedd, one must do three things:";
      "";
      "1.  Create a new transaction in the schedd using `transaction()`.";
      "2.  Call the `queue()` method, passing the transaction object.";
      "3.  Commit the transaction.";
      "";
      "Since the transaction object is a Python context, (1) and (3) can be achieved using Python's with statement:" ];
    Code intro_queue;
    Markdown
    [ "If the code block inside the `with` statement completes successfully, the transaction is automatically committed. If an exception is thrown (or Python abruptly exits), the transaction is aborted." ];
    Markdown
    [ "## Managing Jobs";
      "";
      "Once a job is in queue, the schedd will try its best to execute it to completion. There are several cases where a user may want to interrupt the normal flow of jobs. Perhaps the results are no longer needed; perhaps the job needs to be edited to correct a submission error. These actions fall under the purview of _job management_.";
      "";
      "There are two `Schedd` methods dedicated to job management:";
      "";
      "* `edit()`: Change an attribute for a set of jobs to a given expression. If invoked within a transaction, multiple calls to `edit` are visible atomically.";
      "   * The set of jobs to change can be given as a ClassAd expression. If no jobs match the filter, _then an exception is thrown_.";
      "* `act()`: Change the state of a job to a given state (remove, hold, suspend, etc).";
      "";
      "Both methods take a _job specification_: either a ClassAd expression (such as `Owner=?=" +:+ dq +:+ "janedoe" +:+ dq +:+ "`)";
      "or a list of job IDs (such as `[" +:+ dq +:+ "1.1" +:+ dq +:+ ", " +:+ dq +:+ "2.2" +:+ dq +:+ ", " +:+ dq +:+ "2.3" +:+ dq +:+ "]`).  The `act` method takes an argument";
      "from the `JobAction` enum.  Commonly-used values include:";
      "";
      "* `Hold`: put a job on hold, vacating a running job if necessary.  A job will stay in the hold";
      "   state until explicitly acted upon by the admin or owner.";
      "* `Release`: Release a job from the hold state, returning it to Idle.";
      "* `Remove`: Remove a job from the Schedd's queue, cleaning it up first on the remote host (if running).";
      "   This requires the remote host to acknowledge it has successfully vacated the job, meaning ``Remove`` may";
      "   not be instantaneous.";
      "* `Vacate`: Cause a running job to be killed on the remote resource and return to idle state.  With";
      "  `Vacate`, jobs may be given significant time to cleanly shut down.";
      "";
      "Here's an example of job management in action:" ];
    Code intro_job_management;
    Markdown
    [ "## That's It!";
      "";
      "You've made it through the very basics of the Python bindings.  While there are many other features the Python";
      "module has to offer, we have covered enough to replace the command line tools of `condor_q`, `condor_submit`,";
      "`condor_status`, `condor_rm` and others.";
      "";
      "Head back to the top-level notebook and try out one of our advanced tutorials." ] ].

(** *** tutorials/advanced/Interacting-With-Daemons.ipynb *)

Definition stdout (text : list string) : output := Stream "stdout" text.

Definition adv_import : code_cell :=
  CodeCell (Some 1) [] [ Import "htcondor" ].

Definition adv_param : code_cell :=
  CodeCell (Some 3)
    [ stdout [ "/home/jovyan/.condor/state/log/SchedLog"; "None";
               "/tmp/log"; "/tmp/log" ] ]
    [ print (Index param (Str SQ "SCHEDD_LOG"));
      print (meth param "get" [Str SQ "TOOL_LOG"]);
      print (meth param "setdefault" [Str SQ "TOOL_LOG"; Str SQ "/tmp/log"]);
      print (Index param (Str SQ "TOOL_LOG")) ].

Definition adv_reload : code_cell :=
  CodeCell (Some 5)
    [ stdout [ "/tmp/log"; "None" ] ]
    [ print (meth param "get" [Str DQ "TOOL_LOG"]);
      ExprS (meth htcondor "reload_config" []);
      print (meth param "get" [Str DQ "TOOL_LOG"]) ].

Definition adv_subsystem : code_cell :=
  CodeCell (Some 7)
    [ stdout [ "bar"; "baz"; "bar"; "baz" ] ]
    [ print (meth param "setdefault" [Str DQ "TEST_FOO"; Str DQ "bar"]);
      print (meth param "setdefault" [Str DQ "SCHEDD.TEST_FOO"; Str DQ "baz"]);
      print (Index param (Str SQ "TEST_FOO"));
      ExprS (meth htcondor "set_subsystem" [Str SQ "SCHEDD"]);
      print (Index param (Str SQ "TEST_FOO")) ].

Definition adv_locate : code_cell :=
  CodeCell (Some 9)
    [ stdout [ "<172.17.0.2:9618?addrs=172.17.0.2-9618&noUDP&sock=9_10d8>" ] ]
    [ AssignS (Name "master_ad")
        (meth (meth htcondor "Collector" []) "locate"
           [Attr (Attr htcondor "DaemonTypes") "Master"]);
      print (Index (Name "master_ad") (Str SQ "MyAddress"));
      AssignS (Name "master_param")
        (meth htcondor "RemoteParam" [Name "master_ad"]) ].

Definition adv_types : code_cell :=
  CodeCell (Some 14)
    [ stdout [ "'5'"; "5" ] ]
    [ print (Call (Name "repr")
               [Index (Name "master_param") (Str SQ "UPDATE_INTERVAL")] []);
      print (Call (Name "repr")
               [Index param (Str SQ "UPDATE_INTERVAL")] []) ].

Definition adv_remote_set : code_cell :=
  CodeCell (Some 15)
    [ Error "RuntimeError" "Failed to set remote daemon parameter."
        [ [ ("0;31", "---------------------------------------------------------------------------"); ("0", "") ];
          [ ("0;31", "RuntimeError"); ("0", "                              Traceback (most recent call last)") ];
          [ ("0;32", "<ipython-input-15-90fdfdb9037d>"); ("0", " in "); ("0;36", "<module>"); ("0;34", ""); ("0", nl); ("0;32", "----> 1"); ("0;31", " "); ("0", "master_param"); ("0", ""); ("0;34", "["); ("0", ""); ("0;34", "'UPDATE_INTERVAL'"); ("0", ""); ("0;34", "]"); ("0", " "); ("0;34", "="); ("0", " "); ("0;34", "'500'"); ("0", ""); ("0;34", ""); ("0", ""); ("0;34", ""); ("0", ""); ("0", nl); ("0", "") ];
          [ ("0;31", "RuntimeError"); ("0", ": Failed to set remote daemon parameter.") ] ] ]
    [ AssignS (Index (Name "master_param") (Str SQ "UPDATE_INTERVAL"))
        (Str SQ "500") ].

Definition adv_logging : code_cell :=
  CodeCell (Some 17)
    [ stdout
        [ "04/17/19 19:21:33 Result of reading /etc/issue:  Ubuntu 18.04.1 LTS \n \l";
          " ";
          "04/17/19 19:21:33 Using IDs: 2 processors, 2 CPUs, 0 HTs";
          "04/17/19 19:21:33 Reading condor configuration from '/etc/condor/condor_config'";
          "04/17/19 19:21:33 Enumerating interfaces: lo 127.0.0.1 up";
          "04/17/19 19:21:33 Enumerating interfaces: eth0 172.17.0.2 up";
          "" ] ]
    [ ExprS (meth htcondor "set_subsystem" [Str DQ "TOOL"]);
      AssignS (Index param (Str SQ "TOOL_DEBUG")) (Str SQ "D_FULLDEBUG");
      AssignS (Index param (Str SQ "TOOL_LOG")) (Str SQ "/tmp/log");
      ExprS (meth htcondor "enable_log" []);
      ExprS (meth htcondor "enable_debug" []);
      print (meth (Call (Name "open") [Str DQ "/tmp/log"] []) "read" []) ].

Definition read_master_log : stmt :=
  AssignS (Name "log_lines")
    (meth (Call (Name "open") [Index param (Str SQ "MASTER_LOG")] [])
       "readlines" []).

Definition adv_reconfig : code_cell :=
  CodeCell (Some 19)
    [ stdout
        [ "<172.17.0.2:9618?addrs=172.17.0.2-9618&noUDP&sock=9_10d8>";
          "['04/17/19 19:22:34 Sent SIGHUP to NEGOTIATOR (pid 194)\n', '04/17/19 19:22:34 Sent SIGHUP to SCHEDD (pid 221)\n', '04/17/19 19:22:34 Sent SIGHUP to SHARED_PORT (pid 42)\n', '04/17/19 19:22:34 Sent SIGHUP to STARTD (pid 249)\n']" ] ]
    [ print (Index (Name "master_ad") (Str SQ "MyAddress"));
      ExprS (meth htcondor "send_command"
               [Name "master_ad"; Attr (Attr htcondor "DaemonCommands") "Reconfig"]);
      Import "time";
      ExprS (meth (Name "time") "sleep" [Num 1]);
      read_master_log;
      print (SliceFrom (Name "log_lines") (Num (-4))) ].

Definition adv_daemon_off : code_cell :=
  CodeCell (Some 21)
    [ stdout [ "04/17/19 19:22:40 Sent SIGTERM to SCHEDD (pid 221)"; "" ] ]
    [ ExprS (meth htcondor "send_command"
               [Name "master_ad"; Attr (Attr htcondor "DaemonCommands") "DaemonOff";
                Str DQ "SCHEDD"]);
      ExprS (meth (Name "time") "sleep" [Num 1]);
      read_master_log;
      print (Index (Name "log_lines") (Num (-1))) ].

Definition adv_off_fast : code_cell :=
  CodeCell (Some 22)
    [ stdout [ "04/17/19 19:22:45 **** condor_master (condor_MASTER) pid 9 EXITING WITH STATUS 0"; "" ] ]
    [ ExprS (meth htcondor "send_command"
               [Name "master_ad"; Attr (Attr htcondor "DaemonCommands") "OffFast"]);
      ExprS (meth (Name "time") "sleep" [Num 1]);
      read_master_log;
      print (Index (Name "log_lines") (Num (-1))) ].

Definition adv_restart : code_cell :=
  CodeCell (Some 23)
    [ ExecuteResult 23 [ "0" ] ]
    [ Import "os";
      ExprS (meth (Name "os") "system" [Str DQ "condor_master"]) ].

Definition interacting_with_daemons : notebook :=
  Notebook 4 2 "python3"
  [ Markdown
    [ "# Interacting With Daemons";
      "";
      "In this module, we'll look at how the HTCondor Python bindings can be used to";
      "interact with running daemons.";
      "";
      "Let's start by importing the correct modules:" ];
    Code adv_import;
    Markdown
    [ "## Configuration";
      "";
      "The HTCondor configuration is exposed to Python in two ways:";
      "";
      "*  The local process's configuration is available in the module-level `param` object.";
      "*  A remote daemon's configuration may be queried using a `RemoteParam`";
      "";
      "The `param` object emulates a Python dictionary:" ];
    Code adv_param;
    Markdown
    [ "Note that assignments to `param` will persist only in memory; if we use `reload_config` to re-read the configuration files from disk, our change to `TOOL_LOG` disappears:" ];
    Code adv_reload;
    Markdown
    [ "In HTCondor, a configuration *prefix* may indicate that a setting is specific to that daemon.  By default, the Python binding's prefix is ``TOOL``.  If you would like to use the configuration of a different daemon, utilize the ``set_subsystem`` function:" ];
    Code adv_subsystem;
    Markdown
    [ "Between ``param``, ``reload_config``, and ``set_subsystem``, we can explore the configuration of the local host.";
      "";
      "What happens if we want to test the configuration of a remote daemon?  For that, we can use the `RemoteParam` class.";
      "";
      "The object is first initialized from the output of the `Collector.locate` method:" ];
    Code adv_locate;
    Markdown
    [ "Once we have the ``master_param`` object, we can treat it like a local dictionary to access the remote daemon's configuration.";
      "";
      "**NOTE** that the `htcondor.param` objet attempts to infer type information for configuration values from the compile-time metadata while the `RemoteParam` object does not:" ];
    Code adv_types;
    Markdown
    [ "In fact, we can even *set* the daemon's configuration using the `RemoteParam` object... if we have permission.  By default, this is disabled for security reasons:" ];
    Code adv_remote_set;
    Markdown
    [ "## Logging Subsystem";
      "";
      "The logging subsystem is available to the Python bindings; this is often useful for debugging network connection issues between the client and server.";
      "";
      "**NOTE** Jupyter notebooks discard output from library code; hence, you will not see the results of ``enable_debug`` below." ];
    Code adv_logging;
    Markdown
    [ "## Sending Daemon Commands";
      "";
      "An administrator can send administrative commands directly to the remote daemon.  This is useful if you'd like a certain daemon restarted, drained, or reconfigured.";
      "";
      "Because we have a personal HTCondor instance, we are the administrator - and we can test this out!";
      "";
      "To send a command, use the top-level ``send_command`` function, provide a daemon location, and provide a specific command from the `DaemonCommands` enumeration.  For example, we can *reconfigure*:" ];
    Code adv_reconfig;
    Markdown
    [ "We can also instruct the master to shut down a specific daemon:" ];
    Code adv_daemon_off;
    Markdown
    [ "Or even turn off the whole HTCondor instance:" ];
    Code adv_off_fast;
    Markdown
    [ "Let's turn HTCondor back on for future tutorials:" ];
    Code adv_restart ].

End Nb.

(** ** The repository *)

Inductive file :=
| ShellScript (s : Sh.script)
| NotebookFile (n : Nb.notebook).

Definition repository : list (string * file) :=
  [ ("docker/local.sh", ShellScript Sh.local_sh);
    ("tutorials/advanced/Interacting-With-Daemons.ipynb",
     NotebookFile Nb.interacting_with_daemons);
    ("tutorials/introductory/Submitting-and-Managing-Jobs.ipynb",
     NotebookFile Nb.submitting_and_managing_jobs) ].

Definition notebooks : list Nb.notebook :=
  omap (λ f, match f.2 with NotebookFile n => Some n | _ => None end) repository.

Definition scripts : list Sh.script :=
  omap (λ f, match f.2 with ShellScript s => Some s | _ => None end) repository.

Definition all_code_cells : list Nb.code_cell :=
  List.concat (List.map Nb.code_cells notebooks).

(** ** Properties of cells, as executable checks *)

Module Checks.
Import Py Nb.

Definition nonblank (l : Sh.line) : bool :=
  match l with
  | Sh.Blank => false
  | Sh.Shebang _ | Sh.Cmd _ => true
  end.

Definition is_library (o : origin) : bool :=
  match o with
  | Library => true
  | _ => false
  end.


#[global] Instance op_kind_eq_dec : EqDecision op_kind.
Proof. solve_decision. Defined.

#[global] Instance origin_eq_dec : EqDecision origin.
Proof. solve_decision. Defined.



Definition imports_library (s : stmt) : bool :=
  match s with
  | Import m => String.eqb m "htcondor"
  | _ => false
  end.

(** A cell touches the library when it imports it or uses one of its
    objects. *)
Definition touches_library (cu : code_cell * list op) : bool :=
  existsb imports_library (source cu.1)
  || existsb (λ o, is_library (provenance o)) cu.2.

Definition defines_nothing (c : code_cell) : bool :=
  negb (existsb defines (source c)).

Definition no_error_handling (c : code_cell) : bool :=
  negb (existsb handles_errors (source c)).

Definition lines_between (lo hi : nat) (c : code_cell) : bool :=
  Nat.leb lo (line_count (source c)) && Nat.leb (line_count (source c)) hi.

(** The errors among recorded outputs, as (name, value) pairs. *)
Definition errors (c : code_cell) : list (string * string) :=
  omap (λ o, match o with
             | Error n v _ => Some (n, v)
             | _ => None
             end) (outputs c).

Definition streams (c : code_cell) : list (list string) :=
  omap (λ o, match o with
             | Stream _ t => Some t
             | _ => None
             end) (outputs c).

(** The members of [htcondor.JobAction] named in the code. *)
Definition job_action (e : expr) : option string :=
  match e with
  | Attr (Attr (Name m) e') a =>
      if String.eqb m "htcondor" && String.eqb e' "JobAction"
      then Some a else None
  | _ => None
  end.

(** The job specification passed to a call of an [edit] method. *)
Definition edit_spec (e : expr) : option expr :=
  match e with
  | Call (Attr _ m) (spec :: _) _ =>
      if String.eqb m "edit" then Some spec else None
  | _ => None
  end.

Definition code_exprs (c : code_cell) : list expr :=
  List.concat (List.map stmt_exprs (source c)).

End Checks.

(** ** Evaluating the plain Python of the cells *)

Module PyEval.
Import Py.

(** The values of the plain fragment.  [VObj] stands for an object of
    the library, about which the evaluator knows nothing. *)
Inductive value :=
| VNone
| VInt (n : Z)
| VStr (s : string)
| VList (vs : list value)
| VTuple (vs : list value)
| VObj.

(** An evaluation yields a value, raises an exception (named by its
    class), or falls outside the fragment that is modelled. *)
Inductive result (A : Type) :=
| Ok (a : A)
| Raises (exc : string)
| Unsupported.
Arguments Ok {A} a.
Arguments Raises {A} exc.
Arguments Unsupported {A}.

Definition bind {A B} (r : result A) (k : A → result B) : result B :=
  match r with
  | Ok a => k a
  | Raises exc => Raises exc
  | Unsupported => Unsupported
  end.

Definition rmap {A B} (f : A → B) (r : result A) : result B :=
  bind r (λ a, Ok (f a)).

(** The text of a string literal, with the escapes [\n], [\t], [\\],
    [\'] and the escaped double quote replaced; other escapes are not
    modelled. *)
Fixpoint unescape (s : string) : option string :=
  match s with
  | EmptyString => Some EmptyString
  | String c rest =>
      if Ascii.eqb c "\"%char then
        match rest with
        | EmptyString => None
        | String d rest' =>
            let keep := λ ch, String ch <$> unescape rest' in
            if Ascii.eqb d "n"%char then keep "010"%char
            else if Ascii.eqb d "t"%char then keep "009"%char
            else if Ascii.eqb d "\"%char then keep "\"%char
            else if Ascii.eqb d "'"%char then keep "'"%char
            else if Ascii.eqb d "034"%char then keep "034"%char
            else None
        end
      else String c <$> unescape rest
  end.

(** [str(v)] for the values whose text is modelled. *)
Definition str_of (v : value) : option string :=
  match v with
  | VNone => Some "None"
  | VInt n => Some (pretty n)
  | VStr s => Some s
  | VList _ | VTuple _ | VObj => None
  end.

(** [fmt % args] for the conversions [%d], [%s] and [%%].  Too few or
    too many arguments, and [%d] applied to something that is not a
    number, raise [TypeError]; a lone [%] at the end raises
    [ValueError]. *)
Fixpoint format (fmt : string) (args : list value) : result string :=
  match fmt with
  | EmptyString =>
      match args with
      | [] => Ok EmptyString
      | _ :: _ => Raises "TypeError"
      end
  | String c rest =>
      if Ascii.eqb c "%"%char then
        match rest with
        | EmptyString => Raises "ValueError"
        | String d rest' =>
            if Ascii.eqb d "%"%char then rmap (String "%"%char) (format rest' args)
            else if Ascii.eqb d "d"%char then
              match args with
              | [] => Raises "TypeError"
              | VInt n :: args' => rmap (String.append (pretty n)) (format rest' args')
              | VObj :: _ => Unsupported
              | _ :: _ => Raises "TypeError"
              end
            else if Ascii.eqb d "s"%char then
              match args with
              | [] => Raises "TypeError"
              | v :: args' =>
                  match str_of v with
                  | Some t => rmap (String.append t) (format rest' args')
                  | None => Unsupported
                  end
              end
            else Unsupported
        end
      else rmap (String c) (format rest args)
  end.

(** The arguments of [%]: the members of a tuple, or the one value.  A
    list or a library object on the right of [%] may be taken as a
    mapping, which is not modelled. *)
Definition format_args (v : value) : option (list value) :=
  match v with
  | VTuple vs => Some vs
  | VNone | VInt _ | VStr _ => Some [v]
  | VList _ | VObj => None
  end.

(** [l[i]]: a negative index counts from the end; [None] is an
    [IndexError]. *)
Definition py_index {A} (l : list A) (i : Z) : option A :=
  let n := Z.of_nat (length l) in
  let j := if (i <? 0)%Z then (i + n)%Z else i in
  if (0 <=? j)%Z && (j <? n)%Z then l !! Z.to_nat j else None.

(** [l[lo:]]: the bound is clipped to the list. *)
Definition py_slice_from {A} (l : list A) (lo : Z) : list A :=
  let n := Z.of_nat (length l) in
  let j := if (lo <? 0)%Z then Z.max 0 (lo + n) else Z.min lo n in
  drop (Z.to_nat j) l.

(** Evaluation.  [env] binds the variables; [ext] answers for what the
    library and the built-in functions return (calls, attributes, and
    subscripts of library objects). *)
Fixpoint eval (ext : expr → result value) (env : gmap string value)
    (e : expr) : result value :=
  let all := fix all (es : list expr) : result (list value) :=
    match es with
    | [] => Ok []
    | e' :: es' =>
        bind (eval ext env e') (λ v, bind (all es') (λ vs, Ok (v :: vs)))
    end in
  match e with
  | Name x =>
      match env !! x with
      | Some v => Ok v
      | None => if bool_decide (x ∈ builtins) then ext e else Raises "NameError"
      end
  | Str _ s =>
      match unescape s with
      | Some t => Ok (VStr t)
      | None => Unsupported
      end
  | Num n => Ok (VInt n)
  | ListLit es => rmap VList (all es)
  | Tuple es => rmap VTuple (all es)
  | Mod a b =>
      bind (eval ext env a) (λ va, bind (eval ext env b) (λ vb,
        match va, format_args vb with
        | VStr fmt, Some args => rmap VStr (format fmt args)
        | _, _ => Unsupported
        end))
  | Index a i =>
      bind (eval ext env a) (λ va, bind (eval ext env i) (λ vi,
        match va, vi with
        | VList l, VInt k | VTuple l, VInt k =>
            match py_index l k with
            | Some v => Ok v
            | None => Raises "IndexError"
            end
        | VObj, _ => ext e
        | _, _ => Unsupported
        end))
  | SliceFrom a lo =>
      bind (eval ext env a) (λ va, bind (eval ext env lo) (λ vlo,
        match va, vlo with
        | VList l, VInt k => Ok (VList (py_slice_from l k))
        | VTuple l, VInt k => Ok (VTuple (py_slice_from l k))
        | VObj, _ => ext e
        | _, _ => Unsupported
        end))
  | Attr _ _ | Call _ _ _ => ext e
  | Dict _ => Unsupported
  end.

End PyEval.

(** ** Names and the order of the cells; the numbering of the outputs *)

Module Order.
Import Py Nb.

(** The names an expression reads that are neither bound nor built in. *)
Definition unbound_expr (env : gmap string origin) (e : expr) : list string :=
  omap (λ e', match e' with
              | Name x =>
                  match lookup_name env x with
                  | Unbound => Some x
                  | _ => None
                  end
              | _ => None
              end) (subexprs e).

(** The unbound names a statement reads, and the bindings it leaves. *)
Fixpoint unbound_stmt (s : stmt) (env : gmap string origin)
    : list string * gmap string origin :=
  let block := fix block (body : list stmt) (env : gmap string origin) :=
    match body with
    | [] => ([], env)
    | s' :: body' =>
        let r := unbound_stmt s' env in
        let r' := block body' r.2 in
        (r.1 ++ r'.1, r'.2)
    end in
  match s with
  | Import m => ([], <[m := module_origin m]> env)
  | AssignS (Name x) v => (unbound_expr env v, <[x := origin_of env v]> env)
  | AssignS t v => (unbound_expr env t ++ unbound_expr env v, env)
  | ExprS e | Raise e => (unbound_expr env e, env)
  | With ctx x body =>
      let r := block body (<[x := origin_of env ctx]> env) in
      (unbound_expr env ctx ++ r.1, r.2)
  | For x iter body =>
      let r := block body (<[x := origin_of env iter]> env) in
      (unbound_expr env iter ++ r.1, r.2)
  | Def f _ _ => ([], <[f := User]> env)
  | Class c _ => ([], <[c := User]> env)
  | Try body handler =>
      let r := block body env in
      let r' := block handler r.2 in
      (r.1 ++ r'.1, r'.2)
  | BlankLine => ([], env)
  end.

Fixpoint unbound_source (src : list stmt) (env : gmap string origin)
    : list string * gmap string origin :=
  match src with
  | [] => ([], env)
  | s :: src' =>
      let r := unbound_stmt s env in
      let r' := unbound_source src' r.2 in
      (r.1 ++ r'.1, r'.2)
  end.

(** The unbound names met when the given cells are run in order in a
    fresh interpreter. *)
Fixpoint unbound_run (cs : list code_cell) (env : gmap string origin)
    : list string :=
  match cs with
  | [] => []
  | c :: cs' =>
      let r := unbound_source (source c) env in
      r.1 ++ unbound_run cs' r.2
  end.

(** A cell that runs on its own in a fresh interpreter. *)
Definition standalone (c : code_cell) : bool :=
  match unbound_run [c] ∅ with
  | [] => true
  | _ :: _ => false
  end.

Fixpoint increasing (l : list nat) : bool :=
  match l with
  | a :: ((b :: _) as l') => Nat.ltb a b && increasing l'
  | _ => true
  end.

(** The input number that IPython writes in a traceback frame. *)
Definition input_tag (k : nat) : string :=
  "<ipython-input-" +:+ pretty k +:+ "-".

Definition names_input (k : nat) (tb : list ansi) : bool :=
  existsb (λ a, String.prefix (input_tag k) (plain a)) tb.

(** An output is numbered like the cell it belongs to. *)
Definition output_numbered (c : code_cell) (o : output) : bool :=
  match execution_count c, o with
  | Some k, ExecuteResult k' _ => Nat.eqb k k'
  | Some k, Error _ _ tb => names_input k tb
  | Some _, Stream _ _ => true
  | None, _ => false
  end.

Definition numbered (c : code_cell) : bool :=
  forallb (output_numbered c) (outputs c).

End Order.

(** ** Parts of the cells singled out *)

Module Parts.
Import Py Nb.

(** The arguments of the top-level [print] calls of a cell. *)
Definition printed (c : code_cell) : list expr :=
  omap (λ s, match s with
             | ExprS (Call (Name f) [e] []) =>
                 if String.eqb f "print" then Some e else None
             | _ => None
             end) (source c).

(** The constraint passed to a call of an [act] method. *)
Definition act_spec (e : expr) : option expr :=
  match e with
  | Call (Attr _ m) [_; spec] _ =>
      if String.eqb m "act" then Some spec else None
  | _ => None
  end.

(** The [requirements] of a call of an [xquery] method. *)
Definition query_requirements (e : expr) : option expr :=
  match e with
  | Call (Attr _ m) _ kwargs =>
      if String.eqb m "xquery" then
        snd <$> head (List.filter (λ kv, String.eqb kv.1 "requirements") kwargs)
      else None
  | _ => None
  end.

(** The expressions printed inside the [for] loops of a cell. *)
Definition loop_printed (c : code_cell) : list expr :=
  List.concat
    (List.map (λ s, match s with
                    | For _ _ body => printed (CodeCell None [] body)
                    | _ => []
                    end) (source c)).

End Parts.

(** ** The launcher script does not look at its arguments or environment *)

Module ShFacts.
Import Sh.

Lemma agree_insert D v1 v2 x a :
  agree D v1 v2 → agree ({[x]} ∪ D) (<[x := a]> v1) (<[x := a]> v2).
Proof.
  intros H y Hy. destruct (decide (x = y)) as [Heq|Hne].
  - subst y. by rewrite !lookup_insert_eq.
  - rewrite !lookup_insert_ne by done. apply H.
    apply elem_of_union in Hy as [Hy|Hy]; [|done].
    apply elem_of_singleton in Hy. congruence.
Qed.

Lemma add_part_closed D v1 v2 a1 a2 p f :
  part_closed D p = true → agree D v1 v2 →
  add_part v1 a1 p f = add_part v2 a2 p f.
Proof.
  intros Hp Hv. destruct p as [s|x|n|]; simpl in *; try done.
  apply bool_decide_eq_true in Hp. unfold param_value. by rewrite (Hv x Hp).
Qed.

Lemma part_text_closed D v1 v2 a1 a2 p :
  part_closed D p = true → agree D v1 v2 →
  part_text v1 a1 p = part_text v2 a2 p.
Proof.
  intros Hp Hv. destruct p as [s|x|n|]; simpl in *; try done.
  apply bool_decide_eq_true in Hp. unfold param_value. by rewrite (Hv x Hp).
Qed.

Lemma expand_word_closed D v1 v2 a1 a2 w fs :
  word_closed D w = true → agree D v1 v2 →
  expand_word v1 a1 w fs = expand_word v2 a2 w fs.
Proof.
  intros Hw Hv. unfold expand_word. f_equal. f_equal.
  generalize (fs, @None string). revert Hw.
  induction w as [|p w IH]; intros Hw f; simpl in *; [done|].
  apply andb_true_iff in Hw as [Hp Hw].
  rewrite (add_part_closed D v1 v2 a1 a2 p f Hp Hv). by apply IH.
Qed.

Lemma expand_words_closed D v1 v2 a1 a2 ws :
  forallb (word_closed D) ws = true → agree D v1 v2 →
  expand_words v1 a1 ws = expand_words v2 a2 ws.
Proof.
  intros Hws Hv. unfold expand_words. generalize (@nil string). revert Hws.
  induction ws as [|w ws IH]; intros Hws fs; simpl in *; [done|].
  apply andb_true_iff in Hws as [Hw Hws].
  rewrite (expand_word_closed D v1 v2 a1 a2 w fs Hw Hv). by apply IH.
Qed.

Lemma assign_value_closed D v1 v2 a1 a2 w :
  word_closed D w = true → agree D v1 v2 →
  assign_value v1 a1 w = assign_value v2 a2 w.
Proof.
  intros Hw Hv. unfold assign_value. f_equal.
  induction w as [|p w IH]; simpl in *; [done|].
  apply andb_true_iff in Hw as [Hp Hw].
  rewrite (part_text_closed D v1 v2 a1 a2 p Hp Hv). f_equal. by apply IH.
Qed.

Lemma exec_argv_similar D wd argv s1 s2 :
  similar D s1 s2 → similar D (exec_argv wd argv s1) (exec_argv wd argv s2).
Proof.
  intros (Hv & He & Ht & Hs & Hh). unfold exec_argv.
  destruct argv as [|cmd rest]; [by repeat split|].
  destruct (String.eqb cmd "set").
  - destruct rest as [|flag [|]]; try by repeat split.
    repeat case_match; by repeat split.
  - rewrite He, Ht. by repeat split.
Qed.

Lemma exec_similar D wd a1 a2 c s1 s2 :
  command_closed D c = true → similar D s1 s2 →
  similar (assigned D c) (exec wd a1 c s1) (exec wd a2 c s2).
Proof.
  intros Hc Hs. destruct c as [x w|ws]; simpl in *.
  - destruct Hs as (Hv & He & Ht & _ & _).
    rewrite (assign_value_closed D _ _ a1 a2 w Hc Hv).
    repeat split; simpl; try done. by apply agree_insert.
  - rewrite (expand_words_closed D _ _ a1 a2 ws Hc (proj1 Hs)).
    by apply exec_argv_similar.
Qed.

(** A self-contained script behaves the same whatever its arguments
    and whatever the variables it starts with. *)
Lemma run_similar wd a1 a2 s :
  ∀ D s1 s2, closed D s = true → similar D s1 s2 →
  outcome (run wd a1 s s1) = outcome (run wd a2 s s2).
Proof.
  induction s as [|l s IH]; intros D s1 s2 Hc Hs; simpl.
  - destruct Hs as (_ & _ & Ht & Hst & _). unfold outcome. by rewrite Ht, Hst.
  - destruct l as [i| |c]; simpl in Hc; [by eapply IH|by eapply IH|].
    assert (command_closed D c = true ∧ closed (assigned D c) s = true)
      as [Hcc Hcs].
    { destruct c; simpl; by apply andb_true_iff in Hc. }
    pose proof (exec_similar D wd a1 a2 c s1 s2 Hcc Hs) as Hs'.
    destruct Hs' as (Hv & He & Ht & Hst & Hh).
    rewrite Hh. destruct (halted (exec wd a2 c s2)) eqn:Hh2.
    + unfold outcome. by rewrite Ht, Hst.
    + eapply IH; [exact Hcs|]. unfold similar. rewrite Hh2. auto.
Qed.

Lemma invoke_closed s wd a1 a2 e1 e2 :
  closed ∅ s = true →
  outcome (invoke s wd a1 e1) = outcome (invoke s wd a2 e2).
Proof.
  intros Hc. unfold invoke. eapply run_similar; [exact Hc|].
  unfold similar; simpl. split; [|done].
  intros x Hx. by apply not_elem_of_empty in Hx.
Qed.

End ShFacts.

Module LauncherFacts.
Import Sh ShFacts.

Lemma local_sh_closed : closed ∅ local_sh = true.
Proof. vm_compute. reflexivity. Qed.

(** What the script does from an empty environment, as a function of
    the exit status of the build. *)
Lemma local_sh_outcome wd :
  outcome (invoke local_sh wd [] ∅)
  = if (wd [] docker_build =? 0)%Z
    then ([docker_build; docker_run], wd [docker_build] docker_run)
    else ([docker_build], wd [] docker_build).
Proof.
  vm_compute. destruct (wd [] _); try reflexivity.
  destruct (wd [_] _); reflexivity.
Qed.

(** The same from any arguments and any initial variables. *)
Lemma local_sh_outcome_any wd args vs :
  outcome (invoke local_sh wd args vs)
  = if (wd [] docker_build =? 0)%Z
    then ([docker_build; docker_run], wd [docker_build] docker_run)
    else ([docker_build], wd [] docker_build).
Proof.
  rewrite (invoke_closed local_sh wd args [] vs ∅ local_sh_closed).
  apply local_sh_outcome.
Qed.

End LauncherFacts.

(** ** What the launcher does *)

Module Launcher.
Import Sh ShFacts LauncherFacts.



(** The guard is not idle: with [BASH_ENV] or [SHELLOPTS] set, or with
    an exported function, the model says nothing. *)
Lemma bash_declines_startup_hooks wd args :
  bash local_sh wd args {["BASH_ENV" := "/tmp/rc"]} = None
  ∧ bash local_sh wd args {["SHELLOPTS" := "noexec"]} = None
  ∧ bash local_sh wd args {["BASH_FUNC_set%%" := "() { :; }"]} = None.
Proof. repeat split; vm_compute; reflexivity. Qed.


End Launcher.

(** ** What the notebooks contain *)

Module NotebookFacts.
Import Py Nb Checks.

Lemma Forall_of_forallb {A} (p : A → bool) (P : A → Prop) (l : list A) :
  (∀ x, p x = true → P x) → forallb p l = true → Forall P l.
Proof.
  intros Hp Hl. apply Forall_forall. intros x Hx. apply Hp.
  apply list_elem_of_In in Hx. revert x Hx. by apply forallb_forall.
Qed.

Lemma lines_between_spec lo hi c :
  lines_between lo hi c = true → (lo ≤ line_count (source c) ≤ hi)%nat.
Proof.
  unfold lines_between. intros H. apply andb_true_iff in H as [H1 H2].
  apply Nat.leb_le in H1. apply Nat.leb_le in H2. lia.
Qed.


(** The code cells whose recorded outputs hold an error. *)
Lemma recorded_errors : List.filter has_error all_code_cells = [adv_remote_set].
Proof. vm_compute. reflexivity. Qed.


(** The execution counts of the advanced notebook increase from top to
    bottom: its cells were run in order, in one session. *)
Lemma advanced_run_in_order :
  omap execution_count (code_cells interacting_with_daemons)
  = [1; 3; 5; 7; 9; 14; 15; 17; 19; 21; 22; 23].
Proof. vm_compute. reflexivity. Qed.

(** The only job action the code performs is [Hold]; [Remove] is
    described in prose and never invoked. *)
Lemma only_hold_is_invoked :
  omap job_action (List.concat (List.map code_exprs all_code_cells))
  = ["Hold"].
Proof. vm_compute. reflexivity. Qed.

(** The one call of [edit] names its jobs by a list of job ids. *)
Lemma edit_is_called_on_job_ids :
  render <$> omap edit_spec (List.concat (List.map code_exprs all_code_cells))
  = ["[" +:+ dq +:+ "%d.0" +:+ dq +:+ " % clusterId, "
     +:+ dq +:+ "%d.1" +:+ dq +:+ " % clusterId]"].
Proof. vm_compute. reflexivity. Qed.

(** C3, as stated, fails: the job-management cell of the introductory
    notebook has thirteen source lines, not one or two. *)
Lemma job_management_cell_is_long :
  ¬ (∀ c, In c all_code_cells → (1 ≤ line_count (source c) ≤ 2)%nat).
Proof.
  intros H. specialize (H intro_job_management).
  assert (In intro_job_management all_code_cells) as Hin
    by (vm_compute; tauto).
  apply H in Hin. vm_compute in Hin. lia.
Qed.

(** C3, amended.  The notebooks hold seventeen code cells; each is a
    script of one to thirteen source lines that defines no function or
    class; six of them have one or two lines; and every code cell
    imports the library or uses one of its objects, except the last
    cell of the advanced notebook, which restarts HTCondor through
    [os.system]. *)
Theorem code_cells_are_short_library_scripts :
  length all_code_cells = 17
  ∧ Forall (λ c, (1 ≤ line_count (source c) ≤ 13)%nat
                 ∧ existsb defines (source c) = false) all_code_cells
  ∧ length (List.filter (lines_between 1 2) all_code_cells) = 6
  ∧ List.filter (λ cu, negb (touches_library cu))
      (uses submitting_and_managing_jobs) = []
  ∧ List.filter (λ cu, negb (touches_library cu))
      (uses interacting_with_daemons)
    = [(adv_restart, [Op CallOp (Attr (Name "os") "system") StdModule])].
Proof.
  split; [reflexivity|].
  split.
  - apply (Forall_of_forallb
             (λ c, lines_between 1 13 c && defines_nothing c)).
    + intros c Hc. apply andb_true_iff in Hc as [Hl Hd].
      split; [by apply lines_between_spec|].
      unfold defines_nothing in Hd. by apply negb_true_iff in Hd.
    + vm_compute. reflexivity.
  - split; [vm_compute; reflexivity|].
    split; vm_compute; reflexivity.
Qed.

(** C4, as stated, fails: the recorded execution of one code cell of
    the advanced notebook is an error. *)
Lemma remote_set_cell_records_an_error :
  ¬ (∀ c, In c all_code_cells → has_error c = false).
Proof.
  intros H. specialize (H adv_remote_set).
  assert (In adv_remote_set all_code_cells) as Hin by (vm_compute; tauto).
  apply H in Hin. discriminate Hin.
Qed.

(** C4, amended.  Among the recorded executions, the only one with an
    error output is the cell [master_param['UPDATE_INTERVAL'] = '500']
    of the advanced notebook, recorded as [RuntimeError: Failed to set
    remote daemon parameter.]; every other cell of that notebook was
    executed and records no error; the introductory notebook records no
    execution at all. *)
Theorem only_the_remote_set_records_an_error :
  List.filter has_error all_code_cells = [adv_remote_set]
  ∧ In adv_remote_set (code_cells interacting_with_daemons)
  ∧ render_source (source adv_remote_set)
    = ["master_param['UPDATE_INTERVAL'] = '500'"]
  ∧ errors adv_remote_set
    = [("RuntimeError", "Failed to set remote daemon parameter.")]
  ∧ Forall (λ c, is_Some (execution_count c))
      (code_cells interacting_with_daemons)
  ∧ Forall (λ c, execution_count c = None ∧ outputs c = [])
      (code_cells submitting_and_managing_jobs).
Proof.
  split; [exact recorded_errors|].
  split; [vm_compute; tauto|].
  split; [vm_compute; reflexivity|].
  split; [reflexivity|].
  split.
  - apply (Forall_of_forallb (λ c, bool_decide (is_Some (execution_count c)))).
    + intros c Hc. by apply bool_decide_eq_true in Hc.
    + vm_compute. reflexivity.
  - repeat constructor.
Qed.



End NotebookFacts.

(** ** What the repository consists of *)

Module RepositoryFacts.
Import Sh Nb Checks.

(** C8, as stated, fails: the shell script is not two lines long,
    whether or not its blank lines are counted. *)
Lemma local_sh_has_more_than_two_lines :
  ¬ (length notebooks = 2
     ∧ ∃ s, scripts = [s]
            ∧ (length s = 2 ∨ length (List.filter nonblank s) = 2)).
Proof.
  intros [_ (s & Hs & Hlen)]. injection Hs as <-.
  vm_compute in Hlen. destruct Hlen; discriminate.
Qed.

(** C8, amended.  The repository holds exactly two notebooks and one
    shell script; the script has eight lines, five of them not blank
    (the interpreter line, [set -e], one assignment and two commands),
    and its two commands build the image and run the container. *)
Theorem repository_contents :
  List.map fst repository
  = [ "docker/local.sh";
      "tutorials/advanced/Interacting-With-Daemons.ipynb";
      "tutorials/introductory/Submitting-and-Managing-Jobs.ipynb" ]
  ∧ notebooks = [interacting_with_daemons; submitting_and_managing_jobs]
  ∧ scripts = [local_sh]
  ∧ length local_sh = 8
  ∧ length (List.filter nonblank local_sh) = 5
  ∧ length (List.filter is_external local_sh) = 2
  ∧ trace (invoke local_sh (λ _ _, 0%Z) [] ∅) = [docker_build; docker_run].
Proof.
  repeat split; vm_compute; reflexivity.
Qed.

End RepositoryFacts.

(** ** More on the launcher *)

Module LauncherMore.
Import Sh ShFacts LauncherFacts.

(** X1.  When the build fails, whatever the arguments and whatever the
    values of the variables in an environment that leaves the start-up
    of bash alone, the script stops there: the container is never
    started and the script exits with the status of the build. *)
Theorem local_sh_fails_fast wd args env :
  startup_neutral env = true →
  wd [] docker_build ≠ 0%Z →
  ∃ st, bash local_sh wd args env = Some st
        ∧ trace st = [docker_build]
        ∧ (docker_run ∉ trace st)
        ∧ status st = wd [] docker_build.
Proof.
  intros Hn Hrc. exists (invoke local_sh wd args env).
  unfold bash. rewrite Hn. split; [done|].
  pose proof (local_sh_outcome_any wd args env) as H.
  destruct (Z.eqb_spec (wd [] docker_build) 0) as [|_]; [done|].
  unfold outcome in H. injection H as Ht Hs. rewrite Ht, Hs.
  split; [done|]. split; [|done].
  intros Hin. apply list_elem_of_singleton in Hin. discriminate Hin.
Qed.

Lemma local_sh_fails_fast_witness :
  startup_neutral {["HOME" := "/root"]} = true
  ∧ ((λ _ _ : list string, 2%Z) [] docker_build ≠ 0%Z)
  ∧ ∃ st, bash local_sh (λ _ _, 2%Z) ["-h"] {["HOME" := "/root"]} = Some st
          ∧ trace st = [docker_build]
          ∧ (docker_run ∉ trace st)
          ∧ status st = 2%Z.
Proof.
  split; [vm_compute; reflexivity|]. split; [discriminate|].
  apply (local_sh_fails_fast (λ _ _, 2%Z) ["-h"] {["HOME" := "/root"]}).
  - vm_compute. reflexivity.
  - discriminate.
Defined.

(** X2.  When the build succeeds, in an environment that leaves the
    start-up of bash alone, the script exits with the status of
    [docker run], given what was run before it. *)
Theorem local_sh_exit_status wd args env :
  startup_neutral env = true →
  wd [] docker_build = 0%Z →
  status <$> bash local_sh wd args env = Some (wd [docker_build] docker_run).
Proof.
  intros Hn Hrc. unfold bash. rewrite Hn. simpl. f_equal.
  pose proof (local_sh_outcome_any wd args env) as H.
  rewrite Hrc in H. simpl in H. unfold outcome in H. by injection H.
Qed.

Lemma local_sh_exit_status_witness :
  startup_neutral ∅ = true
  ∧ ((λ h _ : list string, (Z.of_nat (length h) * 130)%Z) [] docker_build
     = 0%Z)
  ∧ status <$> bash local_sh (λ h _, (Z.of_nat (length h) * 130)%Z) [] ∅
    = Some 130%Z.
Proof.
  split; [reflexivity|]. split; [reflexivity|].
  apply (local_sh_exit_status (λ h _, (Z.of_nat (length h) * 130)%Z) [] ∅);
    reflexivity.
Defined.

End LauncherMore.

Module CellFacts.
Import Py Nb Checks PyEval Order Parts.

Lemma py_index_last {A} (l : list A) : py_index l (-1) = last l.
Proof.
  unfold py_index. rewrite last_lookup. simpl.
  destruct l as [|a l]; [done|].
  rewrite length_cons.
  replace (-1 + Z.of_nat (S (length l)))%Z with (Z.of_nat (length l)) by lia.
  rewrite Nat2Z.id.
  replace (0 <=? Z.of_nat (length l))%Z with true
    by (symmetry; apply Z.leb_le; lia).
  replace (Z.of_nat (length l) <? Z.of_nat (S (length l)))%Z with true
    by (symmetry; apply Z.ltb_lt; lia).
  done.
Qed.

Lemma py_slice_from_tail {A} (l : list A) (k : Z) :
  (k < 0)%Z → py_slice_from l k = drop (length l - Z.to_nat (- k)) l.
Proof.
  intros Hk. unfold py_slice_from.
  replace (k <? 0)%Z with true by (symmetry; apply Z.ltb_lt; lia).
  f_equal. lia.
Qed.

Lemma append_empty_r (s : string) : s +:+ "" = s.
Proof.
  induction s as [|c s IH]; [done|].
  change (String c (s +:+ "") = String c s). by f_equal.
Qed.

(** X3.  Whatever cluster id [queue] returns, the job specification handed
    to [edit] is the list of the two job ids [<cluster>.0] and
    [<cluster>.1], written in decimal. *)
Theorem edit_names_procs_0_and_1
    (ext : expr → result value) (env : gmap string value) (n : Z) :
  eval ext (<["clusterId" := VInt n]> env)
    <$> omap edit_spec (code_exprs intro_job_management)
  = [Ok (VList [VStr (pretty n +:+ ".0"); VStr (pretty n +:+ ".1")])].
Proof.
  simpl. rewrite lookup_insert_eq. reflexivity.
Qed.

Lemma job_management_requirements :
  omap query_requirements (code_exprs intro_job_management)
  = [Mod (Str DQ "ClusterId == %d") (Name "clusterId");
     Mod (Str DQ "ClusterId == %d") (Name "clusterId")].
Proof. vm_compute. reflexivity. Qed.

Lemma job_management_act_spec :
  omap act_spec (code_exprs intro_job_management)
  = [Mod (Str SQ "ClusterId==%d && ProcId >= 2") (Name "clusterId")].
Proof. vm_compute. reflexivity. Qed.

(** X4.  Whatever cluster id [queue] returns, both queries ask for the jobs
    of that cluster, and the hold is restricted to that cluster and to
    the procs numbered 2 and above. *)
Theorem constraints_name_the_cluster
    (ext : expr → result value) (env : gmap string value) (n : Z) :
  eval ext (<["clusterId" := VInt n]> env)
    <$> omap query_requirements (code_exprs intro_job_management)
  = [Ok (VStr ("ClusterId == " +:+ pretty n));
     Ok (VStr ("ClusterId == " +:+ pretty n))]
  ∧ eval ext (<["clusterId" := VInt n]> env)
      <$> omap act_spec (code_exprs intro_job_management)
    = [Ok (VStr ("ClusterId==" +:+ pretty n +:+ " && ProcId >= 2"))].
Proof.
  rewrite job_management_requirements, job_management_act_spec.
  split; cbn [fmap list_fmap eval]; rewrite lookup_insert_eq;
    lazy -[pretty String.append]; rewrite ?append_empty_r; reflexivity.
Qed.

Lemma job_management_loop_printed :
  loop_printed intro_job_management
  = [Mod (Str DQ "%d: foo=%s, job_status = %d")
       (Tuple [ meth (Name "job") "get" [Str DQ "ProcId"];
                meth (Name "job") "get" [Str DQ "foo"; Str DQ "default_string"];
                Index (Name "job") (Str DQ "JobStatus") ]);
     Mod (Str DQ "%d: foo=%s, job_status = %d")
       (Tuple [ meth (Name "job") "get" [Str DQ "ProcId"];
                meth (Name "job") "get" [Str DQ "foo"; Str DQ "default_string"];
                Index (Name "job") (Str DQ "JobStatus") ])].
Proof. vm_compute. reflexivity. Qed.

(** X5.  The line printed for a job: when the library gives the integer [p]
    for [ProcId], the text [f] for [foo] (or its default) and the
    integer [s] for [JobStatus], both loops print
    [p: foo=f, job_status = s]. *)
Theorem status_line
    (ext : expr → result value) (env : gmap string value)
    (p s : Z) (f : string) :
  ext (meth (Name "job") "get" [Str DQ "ProcId"]) = Ok (VInt p) →
  ext (meth (Name "job") "get" [Str DQ "foo"; Str DQ "default_string"])
  = Ok (VStr f) →
  ext (Index (Name "job") (Str DQ "JobStatus")) = Ok (VInt s) →
  eval ext (<["job" := VObj]> env) <$> loop_printed intro_job_management
  = [Ok (VStr (pretty p +:+ ": foo=" +:+ f +:+ ", job_status = " +:+ pretty s));
     Ok (VStr (pretty p +:+ ": foo=" +:+ f +:+ ", job_status = " +:+ pretty s))].
Proof.
  intros Hp Hf Hs. rewrite job_management_loop_printed.
  unfold meth in *. cbn [fmap list_fmap eval].
  rewrite Hp, Hf, lookup_insert_eq. cbn [bind].
  rewrite Hs. lazy -[pretty String.append].
  rewrite append_empty_r. reflexivity.
Qed.

Lemma status_line_witness :
  eval (λ e, match e with
             | Index _ _ => Ok (VInt 5)
             | Call _ [_] _ => Ok (VInt 3)
             | Call _ _ _ => Ok (VStr "default_string")
             | _ => Unsupported
             end) (<["job" := VObj]> ∅)
    <$> loop_printed intro_job_management
  = [Ok (VStr "3: foo=default_string, job_status = 5");
     Ok (VStr "3: foo=default_string, job_status = 5")].
Proof.
  apply (status_line _ ∅ 3 5 "default_string"); reflexivity.
Defined.

(** X6.  If the library does not give a number for [ProcId] (the attribute
    is missing and [get] returns [None]), formatting the line raises
    [TypeError]. *)
Theorem status_line_needs_a_proc_id
    (ext : expr → result value) (env : gmap string value)
    (s : Z) (f : string) :
  ext (meth (Name "job") "get" [Str DQ "ProcId"]) = Ok VNone →
  ext (meth (Name "job") "get" [Str DQ "foo"; Str DQ "default_string"])
  = Ok (VStr f) →
  ext (Index (Name "job") (Str DQ "JobStatus")) = Ok (VInt s) →
  eval ext (<["job" := VObj]> env) <$> loop_printed intro_job_management
  = [Raises "TypeError"; Raises "TypeError"].
Proof.
  intros Hp Hf Hs. rewrite job_management_loop_printed.
  unfold meth in *. cbn [fmap list_fmap eval].
  rewrite Hp, Hf, lookup_insert_eq. cbn [bind].
  rewrite Hs. reflexivity.
Qed.

Lemma status_line_needs_a_proc_id_witness :
  eval (λ e, match e with
             | Index _ _ => Ok (VInt 5)
             | Call _ [_] _ => Ok VNone
             | Call _ _ _ => Ok (VStr "bar")
             | _ => Unsupported
             end) (<["job" := VObj]> ∅)
    <$> loop_printed intro_job_management
  = [Raises "TypeError"; Raises "TypeError"].
Proof.
  apply (status_line_needs_a_proc_id _ ∅ 5 "bar"); reflexivity.
Defined.

(** X7.  [print(log_lines[-4:])] never fails: it shows the last four lines
    of the log, or the whole log when it is shorter. *)
Theorem reconfig_shows_last_four_lines
    (ext : expr → result value) (env : gmap string value)
    (l : list value) :
  eval ext (<["log_lines" := VList l]> env) <$> last (printed adv_reconfig)
  = Some (Ok (VList (drop (length l - 4) l)))
  ∧ length (drop (length l - 4) l) = length l `min` 4
  ∧ drop (length l - 4) l `suffix_of` l.
Proof.
  split; [|split].
  - simpl. rewrite lookup_insert_eq. simpl.
    by rewrite (py_slice_from_tail l (-4)).
  - rewrite length_drop. lia.
  - apply suffix_drop.
Qed.

(** X8.  [print(log_lines[-1])], in the two cells that switch daemons off,
    shows the last line of the log, and raises [IndexError] when the
    log is empty. *)
Theorem daemon_off_shows_last_line
    (ext : expr → result value) (env : gmap string value)
    (l : list value) :
  let shown := match last l with
               | Some v => Ok v
               | None => Raises "IndexError"
               end in
  eval ext (<["log_lines" := VList l]> env) <$> printed adv_daemon_off
  = [shown]
  ∧ eval ext (<["log_lines" := VList l]> env) <$> printed adv_off_fast
    = [shown].
Proof.
  split; simpl; rewrite lookup_insert_eq; simpl;
    by rewrite (py_index_last l).
Qed.

(** X9.  Run from top to bottom in a fresh interpreter, neither notebook
    reads a name before it is bound. *)
Theorem notebooks_bind_before_use :
  Forall (λ nb, unbound_run (code_cells nb) ∅ = []) notebooks.
Proof. repeat apply Forall_cons_2; [vm_compute; reflexivity..|constructor]. Qed.

(** X10.  The cells depend on the ones before them: on its own, only the
    import cells and the final restart cell can run in a fresh
    interpreter, and without the cell that imports [time] the two
    cells after it read the unbound name [time]. *)
Theorem cells_depend_on_earlier_cells :
  List.filter standalone (code_cells submitting_and_managing_jobs)
  = [intro_import]
  ∧ List.filter standalone (code_cells interacting_with_daemons)
    = [adv_import; adv_restart]
  ∧ code_cells interacting_with_daemons !! 8 = Some adv_reconfig
  ∧ unbound_run (delete 8 (code_cells interacting_with_daemons)) ∅
    = ["time"; "time"].
Proof. repeat split; vm_compute; reflexivity. Qed.

(** X11.  Every recorded output is numbered like its cell (an execute result
    carries the execution count of its cell, a traceback names the input
    with that count), and the execution counts of the advanced notebook
    increase strictly from top to bottom. *)
Theorem outputs_are_numbered_like_their_cells :
  Forall (λ nb, forallb numbered (code_cells nb) = true) notebooks
  ∧ increasing (omap execution_count (code_cells interacting_with_daemons))
    = true.
Proof.
  split; [|vm_compute; reflexivity].
  repeat apply Forall_cons_2; [vm_compute; reflexivity..|constructor].
Qed.

End CellFacts.
